(** * A shallow embedding of src/app/app.py (devops-monitoring)

    The development models the parts of the Flask service that the
    telemetry specification talks about:
    - [cpu_time_callback], the observable-counter callback reading /proc/stat;
    - [roll_dice], [do_roll] and [do_important_job], the request handler,
      written in a small writer monad that records its observable effects;
    - the configuration read from [os.environ].
    Python strings are modelled as [String.string] over ASCII characters. *)

From Stdlib Require Import ZArith List Bool Ascii String Lia.
From Stdlib Require Import Numbers.DecimalString.
From stdpp Require Import base gmap strings.
Import ListNotations.
Open Scope string_scope.

(* ------------------------------------------------------------------ *)
(** ** Python exceptions and a small error monad *)

Inductive py_error :=
| IndexError   (* states[i] out of range *)
| ValueError   (* int() of a non-numeric token, or a failed unpacking *)
| OSError.     (* open("/proc/stat") failed *)

Inductive result (A : Type) :=
| Ok (a : A)
| Err (e : py_error).
Arguments Ok {A} a.
Arguments Err {A} e.

Definition rbind {A B} (m : result A) (k : A -> result B) : result B :=
  match m with
  | Ok a => k a
  | Err e => Err e
  end.

Notation "'let*' x := m 'in' k" := (rbind m (fun x => k))
  (at level 200, x name, m at level 100, k at level 200).

Definition of_option {A} (e : py_error) (o : option A) : result A :=
  match o with
  | Some a => Ok a
  | None => Err e
  end.

(* ------------------------------------------------------------------ *)
(** ** Python string primitives *)

(** [str.isspace] on ASCII characters: space, \t \n \v \f \r and the
    separators \x1c .. \x1f. *)
Definition is_space (c : ascii) : bool :=
  let n := nat_of_ascii c in
  (n =? 32)%nat || ((9 <=? n)%nat && (n <=? 13)%nat)
  || ((28 <=? n)%nat && (n <=? 31)%nat).

Fixpoint rev_chars (acc : string) (cur : list ascii) : string :=
  match cur with
  | [] => acc
  | c :: cs => rev_chars (String c acc) cs
  end.

(** [str.split()] with no separator: runs of whitespace separate tokens,
    leading and trailing whitespace gives no empty token.  [cur] holds the
    characters of the token being read, in reverse. *)
Fixpoint split_aux (s : string) (cur : list ascii) : list string :=
  match s with
  | EmptyString =>
      match cur with
      | [] => []
      | _ => [rev_chars EmptyString cur]
      end
  | String c s' =>
      if is_space c then
        match cur with
        | [] => split_aux s' []
        | _ => rev_chars EmptyString cur :: split_aux s' []
        end
      else split_aux s' (c :: cur)
  end.

Definition py_split (s : string) : list string := split_aux s [].

(** [str.startswith(p)]. *)
Definition startswith (line p : string) : bool := String.prefix p line.

Definition digit_value (c : ascii) : option Z :=
  let n := nat_of_ascii c in
  if ((48 <=? n)%nat && (n <=? 57)%nat) then Some (Z.of_nat (n - 48))
  else None.

(** Digits of a base-10 literal after its first digit: further digits, or
    a single underscore between two digits, as [int()] accepts them. *)
Fixpoint digits_aux (s : string) (acc : Z) (after_us : bool) : option Z :=
  match s with
  | EmptyString => if after_us then None else Some acc
  | String c s' =>
      match digit_value c with
      | Some d => digits_aux s' (10 * acc + d)%Z false
      | None =>
          if (Ascii.eqb c "_"%char && negb after_us) then digits_aux s' acc true
          else None
      end
  end.

Definition parse_digits (s : string) : option Z :=
  match s with
  | String c s' =>
      match digit_value c with
      | Some d => digits_aux s' d false
      | None => None
      end
  | EmptyString => None
  end.

(** [int(tok)] on a token without whitespace: an optional sign followed by
    a base-10 literal. *)
Definition parse_int (s : string) : option Z :=
  match s with
  | String c s' =>
      if Ascii.eqb c "+"%char then parse_digits s'
      else if Ascii.eqb c "-"%char then option_map Z.opp (parse_digits s')
      else parse_digits s
  | EmptyString => None
  end.

Definition py_int (s : string) : result Z := of_option ValueError (parse_int s).





(** [str(n)] for a Python int. *)
Definition py_str_int (n : Z) : string := NilEmpty.string_of_int (Z.to_int n).

(** [l[i]] on a list, raising IndexError out of range. *)
Definition py_index {A} (l : list A) (i : nat) : result A :=
  of_option IndexError (nth_error l i).

(* ------------------------------------------------------------------ *)
(** ** The System Stat Sampler: [cpu_time_callback] *)

(** [Observation(value, attributes)]; the attribute dict is kept as the
    list of its items in insertion order. *)
Record Observation := mkObservation {
  obs_value : Z;
  obs_attributes : list (string * string)
}.

Definition cpu_labels (cpu state : string) : list (string * string) :=
  [("cpu", cpu); ("state", state)].

(** The body of [for line in procstat: ...] over the lines left after
    [procstat.readline()]. *)
Fixpoint scan_lines (lines : list string) : result (list Observation) :=
  match lines with
  | [] => Ok []
  | line :: rest =>
      if negb (startswith line "cpu") then Ok []   (* break *)
      else
        match py_split line with
        | [] => Err ValueError                     (* cpu, *states = [] *)
        | cpu :: states =>
            let* s0 := py_index states 0 in
            let* v0 := py_int s0 in
            let o_user := mkObservation (v0 / 100)%Z (cpu_labels cpu "user") in
            let* s1 := py_index states 1 in
            let* v1 := py_int s1 in
            let o_system := mkObservation (v1 / 100)%Z (cpu_labels cpu "system") in
            let* tail := scan_lines rest in
            Ok (o_user :: o_system :: tail)
        end
  end.

(** [cpu_time_callback(options)] given the result of reading
    "/proc/stat": [None] when [open] fails, otherwise the lines as the file
    iterator yields them (with their line terminators).  [readline()] on an
    empty file returns "" and the loop then runs zero times. *)
Definition cpu_time_callback (procstat : option (list string))
  : result (list Observation) :=
  match procstat with
  | None => Err OSError
  | Some [] => Ok []
  | Some (_first :: lines) => scan_lines lines
  end.

(** The line terminator "\n" yielded with every line by the file iterator. *)
Definition nl : string := String "010"%char EmptyString.

(* ------------------------------------------------------------------ *)
(** ** The request handler [/rolldice]

    The handler is written in a writer monad over the effects it performs
    on the telemetry subsystem and on the random generator.  The values
    returned by [randint] are inputs of the model: [randint a b] draws
    uniformly among the outcomes listed by [randint_outcomes a b]. *)

Inductive event :=
| EvLog (level msg : string)
| EvCounterAdd (delta : Z)            (* request_counter.add(delta) *)
| EvRandint (a b : Z)                 (* randint(a, b) *)
| EvSpanStart (name : string)         (* entering start_as_current_span *)
| EvSpanEnd (name : string)           (* leaving the with block *)
| EvSetAttribute (key : string) (v : Z)
| EvAddEvent (name : string).

Definition W (A : Type) : Type := (list event * A)%type.

Definition wret {A} (a : A) : W A := ([], a).

Definition wbind {A B} (m : W A) (k : A -> W B) : W B :=
  let (t1, a) := m in
  let (t2, b) := k a in
  ((t1 ++ t2)%list, b).

Notation "x <-- m ;; k" := (wbind m (fun x => k))
  (at level 100, m at next level, right associativity).
Notation "m ;;; k" := (wbind m (fun _ : unit => k))
  (at level 100, right associativity).

Definition emit (e : event) : W unit := ([e], tt).

(** [randint(a, b)] returning the drawn value [v]. *)
Definition randint (a b v : Z) : W Z := ([EvRandint a b], v).

(** The outcomes among which [randint(a, b)] chooses uniformly. *)
Definition randint_outcomes (a b : Z) : list Z :=
  map (fun k => a + Z.of_nat k)%Z (seq 0 (Z.to_nat (b - a + 1))).

Definition log_info (m : string) : W unit := emit (EvLog "INFO" m).
Definition log_debug (m : string) : W unit := emit (EvLog "DEBUG" m).
Definition log_error (m : string) : W unit := emit (EvLog "ERROR" m).

(** [with tracer.start_as_current_span(name): body]; a return inside the
    block still leaves it, ending the span. *)
Definition with_span {A} (name : string) (body : W A) : W A :=
  emit (EvSpanStart name) ;;;
  r <-- body ;;
  emit (EvSpanEnd name) ;;;
  wret r.

(** [do_roll()], the roll being [res]. *)
Definition do_roll (res : Z) : W Z :=
  log_info "do_roll: Starting the function execution." ;;;
  with_span "do_roll" (
    r <-- randint 1 7 res ;;
    log_debug ("do_roll: Dice roll resulted in value " ++ py_str_int r ++ ".") ;;;
    emit (EvSetAttribute "roll.value" r) ;;;
    emit (EvAddEvent "Dice roll span event.") ;;;
    log_info "do_roll: Function execution completed." ;;;
    wret r).

(** [do_important_job()], the job result being [job]. *)
Definition do_important_job (job : Z) : W unit :=
  log_info "do_important_job: Starting an important job." ;;;
  with_span "do_important_job" (
    result <-- randint 1 10000 job ;;
    emit (EvSetAttribute "important_job.result" result) ;;;
    emit (EvAddEvent ("Important job completed with result "
                        ++ py_str_int result ++ ".")) ;;;
    log_debug ("do_important_job: Important job result: "
                 ++ py_str_int result ++ ".")) ;;;
  log_info "do_important_job: Function execution completed.".

(** A Flask response: body and HTTP status (200 when a bare string is
    returned). *)
Record response := mkResponse { body : string; status : Z }.

(** [roll_dice()], the two draws being [res] and [job]. *)
Definition roll_dice (res job : Z) : W response :=
  log_info "roll_dice: Received a request on /rolldice." ;;;
  emit (EvCounterAdd 1) ;;;
  result <-- do_roll res ;;
  do_important_job job ;;;
  if ((result <? 0)%Z || (6 <? result)%Z) then
    log_error ("roll_dice: Invalid dice value received: " ++ py_str_int result ++ "!") ;;;
    wret (mkResponse "Something went wrong!" 500)
  else
    log_info ("roll_dice: Successfully completed with result: "
                ++ py_str_int result ++ ".") ;;;
    wret (mkResponse (py_str_int result) 200).

Definition is_counter_add (e : event) : bool :=
  match e with EvCounterAdd _ => true | _ => false end.

Definition is_randint (e : event) : bool :=
  match e with EvRandint _ _ => true | _ => false end.

(** The running total of [request_counter] after a sequence of effects. *)
Fixpoint apply_counter (total : Z) (es : list event) : Z :=
  match es with
  | [] => total
  | EvCounterAdd d :: es' => apply_counter (total + d)%Z es'
  | _ :: es' => apply_counter total es'
  end.

(* ------------------------------------------------------------------ *)
(** ** Configuration read from [os.environ] *)






(* ------------------------------------------------------------------ *)
(** ** Auxiliary definitions for the statements *)

(** The lines the loop handles before its [break]. *)
Fixpoint matched_lines (lines : list string) : list string :=
  match lines with
  | [] => []
  | l :: r => if startswith l "cpu" then l :: matched_lines r else []
  end.

Definition first_token (l : string) : string := hd "" (py_split l).

(** First tokens of the matched per-cpu lines of a /proc/stat content. *)
Definition matched_cpus (procstat : list string) : list string :=
  match procstat with
  | [] => []
  | _ :: lines => map first_token (matched_lines lines)
  end.

Definition cpu_label_pair (cpu : string) : list (list (string * string)) :=
  [cpu_labels cpu "user"; cpu_labels cpu "system"].

(** A well-formed per-cpu row: the line starts with "cpu", its tokens are
    [cpu], two non-negative tick counts, then any further columns. *)
Definition row_ok (line : string) (row : string * Z * Z) : Prop :=
  let '(cpu, n0, n1) := row in
  startswith line "cpu" = true /\
  exists s0 s1 extra,
    py_split line = cpu :: s0 :: s1 :: extra /\
    parse_int s0 = Some n0 /\ parse_int s1 = Some n1 /\
    (0 <= n0)%Z /\ (0 <= n1)%Z.

(** The observations a row should give: tick counts divided by 100,
    truncating. *)
Definition expected_obs (row : string * Z * Z) : list Observation :=
  let '(cpu, n0, n1) := row in
  [mkObservation (Z.quot n0 100) (cpu_labels cpu "user");
   mkObservation (Z.quot n1 100) (cpu_labels cpu "system")].

(* ------------------------------------------------------------------ *)
(** ** The logging configuration of [init_logs] *)

(** Python's numeric logging levels; an unknown name is NOTSET (0). *)
Definition level_no (lvl : string) : Z :=
  if String.eqb lvl "DEBUG" then 10
  else if String.eqb lvl "INFO" then 20
  else if String.eqb lvl "WARNING" then 30
  else if String.eqb lvl "ERROR" then 40
  else if String.eqb lvl "CRITICAL" then 50
  else 0.

(** A [logging.Handler] as configured: its name, its formatter string and
    its level (NOTSET, 0, when the config gives none). *)
Record log_handler := mkLogHandler {
  h_name : string;
  h_format : string;
  h_level : Z
}.

(** The root logger: its level and its handlers. *)
Record log_config := mkLogConfig {
  root_level : Z;
  root_handlers : list log_handler
}.

Definition log_format : string :=
  "%(asctime)s %(levelname)s [%(name)s] [%(filename)s:%(lineno)d] [trace_id=%(otelTraceID)s span_id=%(otelSpanID)s resource.service.name=%(otelServiceName)s trace_sampled=%(otelTraceSampled)s] - %(message)s".

(** The [dictConfig] of [init_logs]: formatter 'default', the handlers
    'wsgi' (a stream) and 'file' (log/flask.log), root level INFO. *)
Definition init_logs_config : log_config :=
  mkLogConfig (level_no "INFO")
    [mkLogHandler "wsgi" log_format 0; mkLogHandler "file" log_format 0].

(** The records one handler writes out of a trace of effects: a call on
    the root logger creates a record when its level reaches the root
    level, and the handler emits it when it reaches the handler's level. *)
Fixpoint handler_records (cfg : log_config) (h : log_handler) (es : list event)
  : list (string * string) :=
  match es with
  | [] => []
  | EvLog lvl msg :: es' =>
      if ((root_level cfg <=? level_no lvl) && (h_level h <=? level_no lvl))%Z
      then (lvl, msg) :: handler_records cfg h es'
      else handler_records cfg h es'
  | _ :: es' => handler_records cfg h es'
  end.

(* ------------------------------------------------------------------ *)
(** ** Several requests, spans *)

(** The effects of a sequence of requests on [/rolldice], each with its
    two draws. *)
Definition run_requests (draws : list (Z * Z)) : list event :=
  flat_map (fun d => fst (roll_dice (fst d) (snd d))) draws.

Definition is_span_event (e : event) : bool :=
  match e with EvSpanStart _ | EvSpanEnd _ => true | _ => false end.

Definition is_error_log (e : event) : bool :=
  match e with EvLog lvl _ => String.eqb lvl "ERROR" | _ => false end.

(** A per-cpu row as [int()] reads it, of any sign. *)
Definition row_int (line : string) (row : string * Z * Z) : Prop :=
  let '(cpu, n0, n1) := row in
  startswith line "cpu" = true /\
  exists s0 s1 extra,
    py_split line = cpu :: s0 :: s1 :: extra /\
    parse_int s0 = Some n0 /\ parse_int s1 = Some n1.

(** The observations of a row under Python's floor division [//]. *)
Definition floor_obs (row : string * Z * Z) : list Observation :=
  let '(cpu, n0, n1) := row in
  [mkObservation (n0 / 100) (cpu_labels cpu "user");
   mkObservation (n1 / 100) (cpu_labels cpu "system")].

(** The calls on the root logger in a trace, in order: level and message. *)
Fixpoint log_calls (es : list event) : list (string * string) :=
  match es with
  | [] => []
  | EvLog lvl msg :: es' => (lvl, msg) :: log_calls es'
  | _ :: es' => log_calls es'
  end.

(* ------------------------------------------------------------------ *)
(** ** Lemmas *)

Lemma rbind_ok {A B} (m : result A) (k : A -> result B) (b : B) :
  rbind m k = Ok b -> exists a, m = Ok a /\ k a = Ok b.
Proof. destruct m as [a|e]; simpl; [eauto | discriminate]. Qed.

Ltac inv_ok H :=
  let a := fresh "a" in let Ha := fresh "Ha" in
  apply rbind_ok in H; destruct H as [a [Ha H]].

Lemma scan_lines_row line cpu s0 s1 extra n0 n1 rest :
  startswith line "cpu" = true ->
  py_split line = cpu :: s0 :: s1 :: extra ->
  parse_int s0 = Some n0 -> parse_int s1 = Some n1 ->
  scan_lines (line :: rest) =
    rbind (scan_lines rest) (fun tail =>
      Ok (mkObservation (n0 / 100) (cpu_labels cpu "user")
          :: mkObservation (n1 / 100) (cpu_labels cpu "system") :: tail)).
Proof.
  intros Hs Hsp H0 H1. simpl. rewrite Hs, Hsp. simpl.
  unfold py_int. rewrite H0, H1. reflexivity.
Qed.

Lemma scan_lines_break pre line post :
  startswith line "cpu" = false ->
  scan_lines (pre ++ line :: post) = scan_lines pre.
Proof.
  intros Hl. induction pre as [|x pre IH]; simpl.
  - rewrite Hl. reflexivity.
  - destruct (startswith x "cpu"); simpl; [|reflexivity].
    destruct (py_split x) as [|cpu states]; [reflexivity|].
    rewrite IH. reflexivity.
Qed.

Lemma scan_lines_labels lines obs :
  scan_lines lines = Ok obs ->
  map obs_attributes obs
  = flat_map cpu_label_pair (map first_token (matched_lines lines)).
Proof.
  revert obs. induction lines as [|l rest IH]; intros obs H; simpl in *.
  - injection H as <-. reflexivity.
  - destruct (startswith l "cpu"); simpl in *.
    + unfold first_token. destruct (py_split l) as [|cpu states]; [discriminate|].
      inv_ok H. inv_ok H. inv_ok H. inv_ok H. inv_ok H.
      injection H as <-. simpl. rewrite (IH _ Ha3). reflexivity.
    + injection H as <-. reflexivity.
Qed.

Lemma cpu_label_pair_in x c :
  In x (cpu_label_pair c) -> exists st, x = cpu_labels c st.
Proof. simpl. intros [<-|[<-|[]]]; eauto. Qed.

Lemma NoDup_cpu_label_pairs cpus :
  NoDup cpus -> NoDup (flat_map cpu_label_pair cpus).
Proof.
  induction 1 as [|c cs Hc Hnd IH]; simpl; [constructor|].
  assert (Hnot : forall st, ~ In (cpu_labels c st) (flat_map cpu_label_pair cs)).
  { intros st Hin. apply in_flat_map in Hin as [c' [Hc' Hx]].
    apply cpu_label_pair_in in Hx as [st' Heq].
    unfold cpu_labels in Heq. injection Heq as Hcc _. subst c'.
    apply Hc. apply list_elem_of_In. exact Hc'. }
  constructor.
  - intros Hin%list_elem_of_In. simpl in Hin.
    destruct Hin as [Heq | Hin]; [discriminate | exact (Hnot _ Hin)].
  - constructor; [intros Hin%list_elem_of_In; exact (Hnot _ Hin) | exact IH].
Qed.

Lemma roll_dice_response res job :
  snd (roll_dice res job) =
    if ((res <? 0)%Z || (6 <? res)%Z)
    then mkResponse "Something went wrong!" 500
    else mkResponse (py_str_int res) 200.
Proof.
  unfold roll_dice. cbn. destruct ((res <? 0)%Z || (6 <? res)%Z); reflexivity.
Qed.

Lemma randint_outcomes_1_7 : randint_outcomes 1 7 = [1; 2; 3; 4; 5; 6; 7]%Z.
Proof. reflexivity. Qed.

(* ------------------------------------------------------------------ *)
(** ** The claims *)

(** C1: after the skipped first line, every well-formed "cpu" row gives,
    in input order, a user observation then a system observation, each
    tick count divided by 100 with truncation. *)
Theorem cpu_time_callback_rows first lines rows :
  Forall2 row_ok lines rows ->
  cpu_time_callback (Some (first :: lines)) = Ok (flat_map expected_obs rows).
Proof.
  intros Hrows. simpl. induction Hrows as [|line [[cpu n0] n1] lines rows Hrow _ IH].
  - reflexivity.
  - destruct Hrow as [Hs [s0 [s1 [extra [Hsp [H0 [H1 [Hn0 Hn1]]]]]]]].
    rewrite (scan_lines_row line cpu s0 s1 extra n0 n1 lines Hs Hsp H0 H1), IH.
    simpl. rewrite !Z.quot_div_nonneg by lia. reflexivity.
Qed.

Definition sample_stat : list string :=
  ["cpu  100 200" ++ nl; "cpu0 10 20" ++ nl; "cpu1 30 40" ++ nl].

Definition sample_stat_500 : list string :=
  ["cpu  100 200" ++ nl; "cpu0 500 600" ++ nl].

Lemma cpu_time_callback_rows_witness :
  cpu_time_callback (Some sample_stat) =
    Ok [mkObservation 0 [("cpu", "cpu0"); ("state", "user")];
        mkObservation 0 [("cpu", "cpu0"); ("state", "system")];
        mkObservation 0 [("cpu", "cpu1"); ("state", "user")];
        mkObservation 0 [("cpu", "cpu1"); ("state", "system")]] /\
  cpu_time_callback (Some sample_stat_500) =
    Ok [mkObservation 5 [("cpu", "cpu0"); ("state", "user")];
        mkObservation 6 [("cpu", "cpu0"); ("state", "system")]].
Proof.
  split.
  - unfold sample_stat.
    rewrite (cpu_time_callback_rows _ _ [("cpu0", 10, 20); ("cpu1", 30, 40)]%Z).
    + reflexivity.
    + constructor; [|constructor; [|constructor]].
      * split; [reflexivity|]. exists "10", "20", []. vm_compute. repeat split; discriminate.
      * split; [reflexivity|]. exists "30", "40", []. vm_compute. repeat split; discriminate.
  - unfold sample_stat_500.
    rewrite (cpu_time_callback_rows _ _ [("cpu0", 500, 600)]%Z).
    + reflexivity.
    + constructor; [|constructor].
      split; [reflexivity|]. exists "500", "600", []. vm_compute. repeat split; discriminate.
Defined.

(** C2: the scan stops at the first line not starting with "cpu": that
    line and every later one contribute nothing. *)
Theorem cpu_time_callback_stops first pre line post :
  startswith line "cpu" = false ->
  cpu_time_callback (Some (first :: pre ++ line :: post))
  = cpu_time_callback (Some (first :: pre)).
Proof. intros Hl. simpl. apply scan_lines_break. exact Hl. Qed.

Lemma cpu_time_callback_stops_witness :
  startswith ("intr 1" ++ nl) "cpu" = false /\
  cpu_time_callback (Some (app ["cpu  1 2" ++ nl; "cpu0 700 800" ++ nl]
                           (("intr 1" ++ nl) :: ["cpu1 900 1000" ++ nl])))
  = cpu_time_callback (Some ["cpu  1 2" ++ nl; "cpu0 700 800" ++ nl]).
Proof.
  split; [reflexivity|].
  apply (cpu_time_callback_stops ("cpu  1 2" ++ nl) ["cpu0 700 800" ++ nl]).
  reflexivity.
Defined.

(** C4: when the matched per-cpu lines have distinct first tokens, the
    observations of one scrape have pairwise distinct label sets. *)
Theorem cpu_time_callback_labels_unique procstat obs :
  NoDup (matched_cpus procstat) ->
  cpu_time_callback (Some procstat) = Ok obs ->
  NoDup (map obs_attributes obs).
Proof.
  intros Hnd H. destruct procstat as [|first lines]; simpl in H.
  - injection H as <-. constructor.
  - rewrite (scan_lines_labels _ _ H). apply NoDup_cpu_label_pairs. exact Hnd.
Qed.

Lemma cpu_time_callback_labels_unique_witness :
  NoDup (map obs_attributes
           [mkObservation 0 [("cpu", "cpu0"); ("state", "user")];
            mkObservation 0 [("cpu", "cpu0"); ("state", "system")];
            mkObservation 0 [("cpu", "cpu1"); ("state", "user")];
            mkObservation 0 [("cpu", "cpu1"); ("state", "system")]]).
Proof.
  apply (cpu_time_callback_labels_unique sample_stat).
  - vm_compute. repeat constructor; vm_compute; intros Hin;
      repeat (inversion Hin as [|? ? ? Hin']; subst; clear Hin; rename Hin' into Hin).
  - reflexivity.
Defined.

(** C5: the roll is a uniform draw among 1..7 ([randint(1, 7)], whose
    outcomes are exactly 1..7, each once), and for each such roll the
    handler answers 500 exactly when the roll is outside 1..6, otherwise
    the roll as a string with status 200. *)
Theorem roll_dice_status res job :
  In res (randint_outcomes 1 7) ->
  randint_outcomes 1 7 = [1; 2; 3; 4; 5; 6; 7]%Z /\
  NoDup (randint_outcomes 1 7) /\
  filter is_randint (fst (do_roll res)) = [EvRandint 1 7] /\
  snd (do_roll res) = res /\
  (status (snd (roll_dice res job)) = 500%Z <-> ~ (1 <= res <= 6)%Z) /\
  ((1 <= res <= 6)%Z -> snd (roll_dice res job) = mkResponse (py_str_int res) 200).
Proof.
  rewrite randint_outcomes_1_7. intros Hin.
  assert (Hr : (1 <= res <= 7)%Z).
  { simpl in Hin. destruct Hin as [<-|[<-|[<-|[<-|[<-|[<-|[<-|[]]]]]]]]; lia. }
  split; [reflexivity|]. split; [repeat constructor; vm_compute; intros H;
    repeat (inversion H as [|? ? ? H']; subst; clear H; rename H' into H)|].
  split; [reflexivity|]. split; [reflexivity|].
  rewrite roll_dice_response.
  destruct ((res <? 0)%Z || (6 <? res)%Z) eqn:E.
  - apply orb_true_iff in E. rewrite Z.ltb_lt, Z.ltb_lt in E.
    simpl. split; [split; [intros _; lia | reflexivity] | intros; lia].
  - apply orb_false_iff in E. rewrite Z.ltb_ge, Z.ltb_ge in E.
    simpl. split; [split; [discriminate | intros H; lia] | reflexivity].
Qed.

Lemma roll_dice_status_witness :
  (status (snd (roll_dice 7 1234)) = 500%Z <-> ~ (1 <= 7 <= 6)%Z) /\
  snd (roll_dice 4 1234) = mkResponse "4" 200.
Proof.
  split.
  - apply (roll_dice_status 7 1234). simpl. tauto.
  - apply (roll_dice_status 4 1234); [simpl; tauto | lia].
Defined.

(** C6: every call of the handler performs exactly one
    [request_counter.add(1)], before the dice roll, whatever the roll;
    the counter total grows by exactly 1. *)
Theorem roll_dice_counts_once res job total :
  filter is_counter_add (fst (roll_dice res job)) = [EvCounterAdd 1] /\
  apply_counter total (fst (roll_dice res job)) = (total + 1)%Z /\
  exists pre post,
    fst (roll_dice res job) = (pre ++ EvCounterAdd 1 :: post)%list /\
    filter is_randint pre = [].
Proof.
  split; [|split].
  - unfold roll_dice. cbn. destruct ((res <? 0)%Z || (6 <? res)%Z); reflexivity.
  - unfold roll_dice. cbn. destruct ((res <? 0)%Z || (6 <? res)%Z); reflexivity.
  - exists [EvLog "INFO" "roll_dice: Received a request on /rolldice."],
           (tl (tl (fst (roll_dice res job)))).
    split; [|reflexivity].
    unfold roll_dice. cbn. destruct ((res <? 0)%Z || (6 <? res)%Z); reflexivity.
Qed.




(** C10: each matched per-cpu line gives exactly two observations, a
    "user" and a "system" one, whatever the number of further columns. *)
Theorem cpu_time_callback_two_per_line first lines obs :
  cpu_time_callback (Some (first :: lines)) = Ok obs ->
  length obs = (2 * length (matched_lines lines))%nat /\
  map obs_attributes obs
  = flat_map cpu_label_pair (map first_token (matched_lines lines)).
Proof.
  simpl. intros H. pose proof (scan_lines_labels _ _ H) as Hl. split; [|exact Hl].
  rewrite <- (length_map obs_attributes), Hl.
  clear. induction (matched_lines lines) as [|l r IH]; simpl; [reflexivity|].
  rewrite IH. lia.
Qed.

Lemma cpu_time_callback_two_per_line_witness :
  length [mkObservation 1 [("cpu", "cpu0"); ("state", "user")];
          mkObservation 2 [("cpu", "cpu0"); ("state", "system")]] = 2%nat /\
  map obs_attributes
      [mkObservation 1 [("cpu", "cpu0"); ("state", "user")];
       mkObservation 2 [("cpu", "cpu0"); ("state", "system")]]
  = [cpu_labels "cpu0" "user"; cpu_labels "cpu0" "system"].
Proof.
  apply (cpu_time_callback_two_per_line ("cpu  1 2" ++ nl)
           ["cpu0 150 250 30 4000 5 0 7 0 0 0" ++ nl; "intr 99" ++ nl]).
  reflexivity.
Defined.

(* ------------------------------------------------------------------ *)
(** ** Further properties of the code *)

Lemma scan_lines_rows_int lines rows rest :
  Forall2 row_int lines rows ->
  scan_lines (lines ++ rest)
  = rbind (scan_lines rest) (fun t => Ok (flat_map floor_obs rows ++ t)%list).
Proof.
  induction 1 as [|line [[cpu n0] n1] lines rows Hrow _ IH].
  - simpl. destruct (scan_lines rest); reflexivity.
  - destruct Hrow as [Hs [s0 [s1 [extra [Hsp [H0 H1]]]]]].
    simpl app. rewrite (scan_lines_row line cpu s0 s1 extra n0 n1 _ Hs Hsp H0 H1), IH.
    destruct (scan_lines rest); reflexivity.
Qed.

(** Tick counts of any sign are converted with Python's floor division:
    the value of a row is [n / 100] rounded towards minus infinity. *)
Theorem cpu_time_callback_floor first lines rows :
  Forall2 row_int lines rows ->
  cpu_time_callback (Some (first :: lines)) = Ok (flat_map floor_obs rows).
Proof.
  intros Hrows. simpl. rewrite <- (app_nil_r lines), (scan_lines_rows_int _ _ _ Hrows).
  simpl. rewrite app_nil_r. reflexivity.
Qed.

Lemma cpu_time_callback_floor_witness :
  cpu_time_callback (Some ["cpu  1 2" ++ nl; "cpu0 -50 +250" ++ nl])
  = Ok [mkObservation (-1) (cpu_labels "cpu0" "user");
        mkObservation 2 (cpu_labels "cpu0" "system")].
Proof.
  rewrite (cpu_time_callback_floor _ _ [("cpu0", -50, 250)%Z]); [reflexivity|].
  constructor; [|constructor].
  split; [reflexivity|]. exists "-50", "+250", []. vm_compute. repeat split.
Defined.

(** A matched row with a single tick token, or none, makes the whole
    callback raise IndexError (the token there being an integer literal,
    which [int()] reads before [states[1]] is taken), whatever rows precede
    or follow it: no partial list of observations is returned. *)
Theorem cpu_time_callback_short_row first pre rows line post cpu :
  Forall2 row_int pre rows ->
  startswith line "cpu" = true ->
  (py_split line = [cpu] \/
   exists s0 n0, py_split line = [cpu; s0] /\ parse_int s0 = Some n0) ->
  cpu_time_callback (Some (first :: pre ++ line :: post)) = Err IndexError.
Proof.
  intros Hpre Hs Hshort. simpl. rewrite (scan_lines_rows_int _ _ _ Hpre).
  simpl. rewrite Hs. simpl.
  destruct Hshort as [Hsp | [s0 [n0 [Hsp H0]]]]; rewrite Hsp; simpl; [reflexivity|].
  unfold py_int. rewrite H0. reflexivity.
Qed.

Lemma cpu_time_callback_short_row_witness :
  cpu_time_callback (Some (app ["cpu  1 2" ++ nl; "cpu0 100 200" ++ nl]
                              (("cpu1 300" ++ nl) :: ["cpu2 1 2" ++ nl])))
  = Err IndexError.
Proof.
  apply (cpu_time_callback_short_row _ _ [("cpu0", 100, 200)%Z] _ _ "cpu1").
  - constructor; [|constructor].
    split; [reflexivity|]. exists "100", "200", []. vm_compute. repeat split.
  - reflexivity.
  - right. exists "300", 300%Z. split; reflexivity.
Defined.



Lemma apply_counter_app total es1 es2 :
  apply_counter total (es1 ++ es2) = apply_counter (apply_counter total es1) es2.
Proof.
  revert total. induction es1 as [|e es1 IH]; intros total; [reflexivity|].
  destruct e; simpl; apply IH.
Qed.

Lemma roll_dice_counter_step res job total :
  apply_counter total (fst (roll_dice res job)) = (total + 1)%Z.
Proof. unfold roll_dice. cbn. destruct ((res <? 0)%Z || (6 <? res)%Z); reflexivity. Qed.

(** The handler's own code (inside the server span that FlaskInstrumentor
    opens around each request) opens and closes two spans, one after the
    other and not nested in each other: "do_roll", then
    "do_important_job". *)
Theorem roll_dice_spans res job :
  filter is_span_event (fst (roll_dice res job))
  = [EvSpanStart "do_roll"; EvSpanEnd "do_roll";
     EvSpanStart "do_important_job"; EvSpanEnd "do_important_job"].
Proof. unfold roll_dice. cbn. destruct ((res <? 0)%Z || (6 <? res)%Z); reflexivity. Qed.

(** The response of [roll_dice] does not depend on the important job's
    result. *)
Theorem roll_dice_ignores_job res job1 job2 :
  snd (roll_dice res job1) = snd (roll_dice res job2).
Proof. rewrite !roll_dice_response. reflexivity. Qed.

(** An error is logged exactly on the 500 path, once, naming the roll. *)
Theorem roll_dice_error_log res job :
  filter is_error_log (fst (roll_dice res job))
  = if (status (snd (roll_dice res job)) =? 500)%Z
    then [EvLog "ERROR" ("roll_dice: Invalid dice value received: " ++ py_str_int res ++ "!")]
    else [].
Proof.
  rewrite roll_dice_response. unfold roll_dice. cbn.
  destruct ((res <? 0)%Z || (6 <? res)%Z); reflexivity.
Qed.

(** Over any sequence of requests the request counter grows by exactly
    the number of requests, whatever their outcomes. *)
Theorem run_requests_counter draws total :
  apply_counter total (run_requests draws) = (total + Z.of_nat (length draws))%Z.
Proof.
  revert total. induction draws as [|[res job] draws IH]; intros total.
  - simpl. lia.
  - unfold run_requests. simpl flat_map. rewrite apply_counter_app.
    simpl fst. simpl snd. rewrite roll_dice_counter_step.
    fold (run_requests draws). rewrite IH. simpl length. lia.
Qed.

(** With the configuration of [init_logs], each of the two handlers
    ('wsgi' and 'file') writes exactly the non-DEBUG log calls of a
    request, in order: the DEBUG calls of [do_roll] and
    [do_important_job] never reach a sink. *)
Theorem roll_dice_written_logs res job h :
  In h (root_handlers init_logs_config) ->
  handler_records init_logs_config h (fst (roll_dice res job))
  = filter (fun r => negb (String.eqb (fst r) "DEBUG"))
           (log_calls (fst (roll_dice res job))).
Proof.
  simpl. intros [<- | [<- | []]]; unfold roll_dice; cbn;
    destruct ((res <? 0)%Z || (6 <? res)%Z); reflexivity.
Qed.

Lemma roll_dice_written_logs_witness :
  handler_records init_logs_config (mkLogHandler "file" log_format 0)
    (fst (roll_dice 3 17))
  = filter (fun r => negb (String.eqb (fst r) "DEBUG"))
           (log_calls (fst (roll_dice 3 17))).
Proof. apply roll_dice_written_logs. simpl. tauto. Defined.
